(** * A fitness tracker: distance, mean speed and calories of a workout

    A shallow embedding of [homework.py].  The module reads one package of
    sensor data (a workout code and a list of numbers), builds an object of
    one of the classes [Running], [SportsWalking] or [Swimming] (all derived
    from [Training]), asks it for its distance, mean speed and calories and
    renders these in a one-line message.

    Python numbers are modelled as they are at run time: an [int] is an
    unbounded integer, a [float] is an IEEE 754 binary64 value (the kernel's
    primitive floats, which round to nearest-even exactly as CPython's C
    doubles do), and every arithmetic operator of the source is the Python
    operator with its coercions and its exceptions. *)

From Stdlib Require Import ZArith Floats Lia List Ascii String DecimalString.
From stdpp Require Import gmap strings.

Set Warnings "-inexact-float".
Local Open Scope Z_scope.

(** ** Exceptions and results *)

(** The built-in exceptions the module can raise. *)
Inductive exn : Set :=
| KeyError            (* [raise KeyError("Workout not found")] *)
| TypeError           (* wrong number of constructor arguments, [None] operand *)
| ZeroDivisionError   (* [/] and [//] by zero *)
| OverflowError.      (* int too large for a float, [**] out of range *)

Inductive result (A : Type) : Type :=
| Ok (a : A)
| Raise (e : exn).
Arguments Ok {A} a.
Arguments Raise {A} e.

#[global] Instance result_ret : MRet result := fun A a => Ok a.
#[global] Instance result_bind : MBind result := fun A B k m =>
  match m with
  | Ok a => k a
  | Raise e => Raise e
  end.

Definition returns {A} (m : result A) : bool :=
  match m with Ok _ => true | Raise _ => false end.

(** ** Python numbers *)

Inductive pyval : Set :=
| PyInt (z : Z)
| PyFloat (f : float)
| PyNone.

Module PyNum.

(** *** C doubles *)

Definition is_nan (x : float) : bool :=
  match Prim2SF x with S754_nan => true | _ => false end.

Definition is_infinity (x : float) : bool :=
  match Prim2SF x with S754_infinity _ => true | _ => false end.

Definition is_finite (x : float) : bool :=
  match Prim2SF x with
  | S754_zero _ | S754_finite _ _ _ => true
  | _ => false
  end.

(** The sign bit ([signbit] of C); a NaN counts as positive. *)
Definition signbit (x : float) : bool :=
  match Prim2SF x with
  | S754_zero s | S754_infinity s | S754_finite s _ _ => s
  | S754_nan => false
  end.

(** [x == 0.0] in C: true of both zeros. *)
Definition is_zero (x : float) : bool := PrimFloat.eqb x 0%float.

(** C truth of a double, [if (x)]: anything but a zero, NaN included. *)
Definition truthy (x : float) : bool := negb (is_zero x).

Definition signed_zero (s : bool) : float :=
  if s then (-0)%float else 0%float.

(** The double nearest to [m * 2^e], ties to even; infinite on overflow. *)
Definition round_to_double (m e : Z) : float :=
  SF2Prim (binary_normalize prec emax m e false).

(** [fmod] of C: the exact remainder of [x / y], with the sign of [x]. *)
Definition fmod (x y : float) : float :=
  match Prim2SF x, Prim2SF y with
  | S754_nan, _ | _, S754_nan => nan
  | S754_infinity _, _ => nan
  | _, S754_zero _ => nan
  | _, S754_infinity _ => x
  | S754_zero _, _ => x
  | S754_finite sx mx ex, S754_finite _ my ey =>
      let e := Z.min ex ey in
      let r := (Z.pos mx * 2 ^ (ex - e)) mod (Z.pos my * 2 ^ (ey - e)) in
      if r =? 0 then signed_zero sx
      else round_to_double (if sx then - r else r) e
  end.

(** [floor] of C. *)
Definition floor (x : float) : float :=
  match Prim2SF x with
  | S754_finite s m e =>
      if 0 <=? e then x
      else
        let n := Z.shiftr (if s then Z.neg m else Z.pos m) (- e) in
        if n =? 0 then 0%float else round_to_double n 0
  | _ => x
  end.

(** *** Conversions *)

(** [PyLong_AsDouble]: the nearest double, [OverflowError] beyond the range. *)
Definition long_as_double (z : Z) : result float :=
  let f := round_to_double z 0 in
  if is_infinity f then Raise OverflowError else Ok f.

(** [CONVERT_TO_DOUBLE] of floatobject.c, with [None] refused. *)
Definition to_float (v : pyval) : result float :=
  match v with
  | PyInt z => long_as_double z
  | PyFloat f => Ok f
  | PyNone => Raise TypeError
  end.

(** *** Operators on floats *)

(** [float_div]: IEEE division behind a test for a zero divisor. *)
Definition float_div (a b : float) : result float :=
  if is_zero b then Raise ZeroDivisionError else Ok (a / b)%float.

(** [float_floor_div] with [_float_div_mod] of floatobject.c. *)
Definition float_floor_div (vx wx : float) : result float :=
  if is_zero wx then Raise ZeroDivisionError
  else
    let mod_ := fmod vx wx in
    let div := ((vx - mod_) / wx)%float in
    let div :=
      if truthy mod_ then
        if negb (Bool.eqb (PrimFloat.ltb wx 0) (PrimFloat.ltb mod_ 0))
        then (div - 1)%float else div
      else div in
    if truthy div then
      let floordiv := floor div in
      if PrimFloat.ltb 0.5 (div - floordiv)
      then Ok (floordiv + 1)%float else Ok floordiv
    else Ok (signed_zero (signbit (vx / wx))).

(** [float_pow] at the exponent 2.  NaN and the infinities are answered
    before the C library is asked; for a finite base the library's
    [pow(|x|, 2.0)] is taken to be the correctly rounded square, and a
    result out of range is an [OverflowError]. *)
Definition float_pow2 (x : float) : result float :=
  let r := (x * x)%float in
  if is_finite x && is_infinity r then Raise OverflowError else Ok r.

(** *** Operators on ints *)

(** [long_true_divide]: the correctly rounded quotient of two ints.  The
    quotient is taken with at least 64 significant bits and a sticky bit
    for the remainder, then rounded once. *)
Definition long_true_divide (a b : Z) : result float :=
  if b =? 0 then Raise ZeroDivisionError
  else if a =? 0 then Ok (signed_zero (b <? 0))
  else
    let negate := xorb (a <? 0) (b <? 0) in
    let k := Z.max 0 (64 + Z.log2 (Z.abs b) - Z.log2 (Z.abs a)) in
    let n := Z.abs a * 2 ^ k in
    let m := 2 * (n / Z.abs b) + (if n mod Z.abs b =? 0 then 0 else 1) in
    let f := round_to_double (if negate then - m else m) (- k - 1) in
    if is_infinity f then Raise OverflowError else Ok f.

(** *** The binary operators [+ - * / // **] *)

(** A binary operator on an int and a float, or two floats: both operands
    are converted, left first. *)
Definition float_binop (op : float -> float -> result float) (a b : pyval)
  : result pyval :=
  x ← to_float a; y ← to_float b; r ← op x y; mret (PyFloat r).

Definition py_add (a b : pyval) : result pyval :=
  match a, b with
  | PyNone, _ | _, PyNone => Raise TypeError
  | PyInt x, PyInt y => Ok (PyInt (x + y))
  | _, _ => float_binop (fun x y => Ok (x + y)%float) a b
  end.

Definition py_sub (a b : pyval) : result pyval :=
  match a, b with
  | PyNone, _ | _, PyNone => Raise TypeError
  | PyInt x, PyInt y => Ok (PyInt (x - y))
  | _, _ => float_binop (fun x y => Ok (x - y)%float) a b
  end.

Definition py_mul (a b : pyval) : result pyval :=
  match a, b with
  | PyNone, _ | _, PyNone => Raise TypeError
  | PyInt x, PyInt y => Ok (PyInt (x * y))
  | _, _ => float_binop (fun x y => Ok (x * y)%float) a b
  end.

Definition py_truediv (a b : pyval) : result pyval :=
  match a, b with
  | PyNone, _ | _, PyNone => Raise TypeError
  | PyInt x, PyInt y => r ← long_true_divide x y; mret (PyFloat r)
  | _, _ => float_binop float_div a b
  end.

Definition py_floordiv (a b : pyval) : result pyval :=
  match a, b with
  | PyNone, _ | _, PyNone => Raise TypeError
  | PyInt x, PyInt y =>
      if y =? 0 then Raise ZeroDivisionError else Ok (PyInt (x / y))
  | _, _ => float_binop float_floor_div a b
  end.

(** [a ** 2]. *)
Definition py_pow2 (a : pyval) : result pyval :=
  match a with
  | PyNone => Raise TypeError
  | PyInt x => Ok (PyInt (x * x))
  | PyFloat x => r ← float_pow2 x; mret (PyFloat r)
  end.

(** [v == 0] for a number. *)
Definition py_is_zero (v : pyval) : bool :=
  match v with
  | PyInt z => z =? 0
  | PyFloat f => is_zero f
  | PyNone => false
  end.

End PyNum.

(** ** Rendering a number with [{:.3f}] *)

Module PyFormat.
Import PyNum.

Definition digit (d : Z) : ascii := ascii_of_nat (48 + Z.to_nat d).


(** [n / 2^k] rounded to the nearest integer, ties to the even one. *)
Definition round_half_even (n k : Z) : Z :=
  let q := Z.shiftr n k in
  let r := n - Z.shiftl q k in
  let half := Z.shiftl 1 (k - 1) in
  if r <? half then q
  else if half <? r then q + 1
  else if Z.even q then q else q + 1.

(** The value [m * 2^e] in thousandths, correctly rounded, as the C
    library's conversion of a double to a fixed number of decimals is. *)
Definition thousandths (m : positive) (e : Z) : Z :=
  if 0 <=? e then Z.pos m * 1000 * 2 ^ e
  else round_half_even (Z.pos m * 1000) (- e).

Definition decimal (n : Z) : string :=
  NilZero.string_of_uint (N.to_uint (Z.to_N n)).

Definition frac3 (n : Z) : string :=
  String (digit (n / 100 mod 10))
    (String (digit (n / 10 mod 10)) (String (digit (n mod 10)) "")).

(** A count of thousandths written with a decimal point. *)
Definition fixed3 (n : Z) : string := decimal (n / 1000) +:+ "." +:+ frac3 (n mod 1000).

Definition sign_prefix (s : bool) : string := if s then "-" else "".

(** [format(x, '.3f')] for a float. *)
Definition float_format_3f (x : float) : string :=
  match Prim2SF x with
  | S754_nan => "nan"
  | S754_infinity s => sign_prefix s +:+ "inf"
  | S754_zero s => sign_prefix s +:+ fixed3 0
  | S754_finite s m e => sign_prefix s +:+ fixed3 (thousandths m e)
  end.

(** [format(v, '.3f')]: an int is converted to a float first; [None] has no
    such format. *)
Definition format_3f (v : pyval) : result string :=
  match v with
  | PyNone => Raise TypeError
  | _ => x ← to_float v; mret (float_format_3f x)
  end.




End PyFormat.

Import PyNum.

(** ** [InfoMessage] *)

Module InfoMessage.

(** The dataclass: a type name and four fields that are numbers when the
    message comes from a concrete training ([None] reaches [calories] when
    it comes from the base class). *)
Record t : Set := mk {
  training_type : string;
  duration : pyval;
  distance : pyval;
  speed : pyval;
  calories : pyval
}.

(** [MESSAGE.format(...)]: the five fields go into the template in order;
    the first is a [str] and is copied, the others take [{:.3f}]. *)
Definition get_message (self : t) : result string :=
  d ← PyFormat.format_3f (duration self);
  l ← PyFormat.format_3f (distance self);
  s ← PyFormat.format_3f (speed self);
  c ← PyFormat.format_3f (calories self);
  mret ("Тип тренировки: " +:+ training_type self +:+ "; "
        +:+ "Длительность: " +:+ d +:+ " ч.; "
        +:+ "Дистанция: " +:+ l +:+ " км; "
        +:+ "Ср. скорость: " +:+ s +:+ " км/ч; "
        +:+ "Потрачено ккал: " +:+ c +:+ ".").

End InfoMessage.

(** ** The training classes *)

Inductive class : Set := Training_ | Running_ | SportsWalking_ | Swimming_.

(** [cls.__name__] *)
Definition __name__ (c : class) : string :=
  match c with
  | Training_ => "Training"
  | Running_ => "Running"
  | SportsWalking_ => "SportsWalking"
  | Swimming_ => "Swimming"
  end.

(** An instance: its class and its dataclass fields, in the order of the
    generated [__init__]. *)
Inductive training : Set :=
| Training (action duration weight : pyval)
| Running (action duration weight : pyval)
| SportsWalking (action duration weight height : pyval)
| Swimming (action duration weight length_pool count_pool : pyval).

Definition __class__ (self : training) : class :=
  match self with
  | Training _ _ _ => Training_
  | Running _ _ _ => Running_
  | SportsWalking _ _ _ _ => SportsWalking_
  | Swimming _ _ _ _ _ => Swimming_
  end.

Definition action (self : training) : pyval :=
  match self with
  | Training a _ _ | Running a _ _ | SportsWalking a _ _ _ | Swimming a _ _ _ _ => a
  end.

Definition duration (self : training) : pyval :=
  match self with
  | Training _ d _ | Running _ d _ | SportsWalking _ d _ _ | Swimming _ d _ _ _ => d
  end.

Definition weight (self : training) : pyval :=
  match self with
  | Training _ _ w | Running _ _ w | SportsWalking _ _ w _ | Swimming _ _ w _ _ => w
  end.

(** *** Class attributes, looked up through the class of [self] *)

Definition M_IN_KM : pyval := PyInt 1000.
Definition HOUR : pyval := PyInt 60.

(** [Swimming] overrides the [LEN_STEP] of [Training]. *)
Definition LEN_STEP (c : class) : pyval :=
  match c with
  | Swimming_ => PyFloat 1.38
  | _ => PyFloat 0.65
  end.

Definition COEF_CALORIE_1 : pyval := PyInt 18.
Definition COEF_CALORIE_2 : pyval := PyInt 20.
Definition COEF_CALORIE_01 : pyval := PyFloat 0.035.
Definition COEF_CALORIE_02 : pyval := PyFloat 0.029.
Definition COEF_CALORIE_001 : pyval := PyFloat 1.1.
Definition COEF_CALORIE_002 : pyval := PyInt 2.

(** *** Methods *)

(** [Training.get_distance] *)
Definition Training_get_distance (self : training) : result pyval :=
  x ← py_mul (action self) (LEN_STEP (__class__ self));
  py_truediv x M_IN_KM.

(** [Swimming.get_distance], the same text again in the subclass. *)
Definition Swimming_get_distance (self : training) : result pyval :=
  x ← py_mul (action self) (LEN_STEP (__class__ self));
  py_truediv x M_IN_KM.

Definition get_distance (self : training) : result pyval :=
  match __class__ self with
  | Swimming_ => Swimming_get_distance self
  | _ => Training_get_distance self
  end.

(** [Training.get_mean_speed] *)
Definition Training_get_mean_speed (self : training) : result pyval :=
  d ← get_distance self;
  py_truediv d (duration self).

(** [Swimming.get_mean_speed] *)
Definition Swimming_get_mean_speed (duration length_pool count_pool : pyval)
  : result pyval :=
  x ← py_mul length_pool count_pool;
  y ← py_truediv x M_IN_KM;
  py_truediv y duration.

Definition get_mean_speed (self : training) : result pyval :=
  match self with
  | Swimming _ duration _ length_pool count_pool =>
      Swimming_get_mean_speed duration length_pool count_pool
  | _ => Training_get_mean_speed self
  end.

(** [get_spent_calories]: the body of the base class is [pass]; each
    subclass has its own.  Operands are evaluated left to right. *)
Definition get_spent_calories (self : training) : result pyval :=
  match self with
  | Training _ _ _ => mret PyNone
  | Running _ duration weight =>
      s ← get_mean_speed self;
      a ← py_mul COEF_CALORIE_1 s;
      b ← py_sub a COEF_CALORIE_2;
      c ← py_mul b weight;
      d ← py_truediv c M_IN_KM;
      e ← py_mul d duration;
      py_mul e HOUR
  | SportsWalking _ duration weight height =>
      a ← py_mul COEF_CALORIE_01 weight;
      s ← get_mean_speed self;
      p ← py_pow2 s;
      q ← py_floordiv p height;
      b ← py_mul q COEF_CALORIE_02;
      c ← py_mul b weight;
      d ← py_add a c;
      e ← py_mul d duration;
      py_mul e HOUR
  | Swimming _ _ weight _ _ =>
      s ← get_mean_speed self;
      a ← py_add s COEF_CALORIE_001;
      b ← py_mul a COEF_CALORIE_002;
      py_mul b weight
  end.

(** [Training.show_training_info] *)
Definition show_training_info (self : training) : result InfoMessage.t :=
  l ← get_distance self;
  s ← get_mean_speed self;
  c ← get_spent_calories self;
  mret (InfoMessage.mk (__name__ (__class__ self)) (duration self) l s c).

(** ** Reading a package *)

(** Calling a class on [*data]: the generated [__init__] takes exactly the
    fields of the class, in order; any other number of arguments is a
    [TypeError]. *)
Definition construct (c : class) (data : list pyval) : result training :=
  match c, data with
  | Training_, [a; d; w] => Ok (Training a d w)
  | Running_, [a; d; w] => Ok (Running a d w)
  | SportsWalking_, [a; d; w; h] => Ok (SportsWalking a d w h)
  | Swimming_, [a; d; w; l; n] => Ok (Swimming a d w l n)
  | _, _ => Raise TypeError
  end.

(** The dict of [read_package], from workout code to class. *)
Definition traning_types : gmap string class :=
  {[ "SWM" := Swimming_; "RUN" := Running_; "WLK" := SportsWalking_ ]}.

(** [read_package]: a code that is not a key of the dict raises
    [KeyError("Workout not found")]; otherwise the class found is called on
    the data. *)
Definition read_package (workout_type : string) (data : list pyval)
  : result training :=
  match traning_types !! workout_type with
  | None => Raise KeyError
  | Some c => construct c data
  end.

(** [main], with the printed line as its result. *)
Definition main (training : training) : result string :=
  info ← show_training_info training;
  InfoMessage.get_message info.

(** The packages of the [__main__] block. *)
Definition packages : list (string * list pyval) :=
  [ ("SWM", [PyInt 720; PyInt 1; PyInt 80; PyInt 25; PyInt 40]);
    ("RUN", [PyInt 15000; PyInt 1; PyInt 75]);
    ("WLK", [PyInt 9000; PyInt 1; PyInt 75; PyInt 180]) ].

(** ** Vocabulary of the statements *)

(** The dividend of the division by [self.duration] in [get_mean_speed]:
    the distance, or for [Swimming] the length swum in km. *)
Definition mean_speed_dividend (self : training) : result pyval :=
  match self with
  | Swimming _ _ _ length_pool count_pool =>
      x ← py_mul length_pool count_pool; py_truediv x M_IN_KM
  | _ => get_distance self
  end.

(** The workout codes and the class each one stands for. *)
Definition recognized_codes : list (string * class) :=
  [("SWM", Swimming_); ("RUN", Running_); ("WLK", SportsWalking_)].

(** The number of dataclass fields of a class. *)
Definition arity (c : class) : nat :=
  match c with
  | Training_ | Running_ => 3
  | SportsWalking_ => 4
  | Swimming_ => 5
  end.

(** The fields of an instance in declaration order: those of [Training],
    then those the subclass adds. *)
Definition fields (self : training) : list pyval :=
  match self with
  | Training a d w | Running a d w => [a; d; w]
  | SportsWalking a d w h => [a; d; w; h]
  | Swimming a d w l n => [a; d; w; l; n]
  end.

(** [InfoMessage.MESSAGE] with its five places filled by strings. *)
Definition message_line (training_type duration distance speed calories : string)
  : string :=
  "Тип тренировки: " +:+ training_type +:+ "; "
  +:+ "Длительность: " +:+ duration +:+ " ч.; "
  +:+ "Дистанция: " +:+ distance +:+ " км; "
  +:+ "Ср. скорость: " +:+ speed +:+ " км/ч; "
  +:+ "Потрачено ккал: " +:+ calories +:+ ".".

(** * Properties *)

(** ** The operators at work *)

(** Floor division of floats is the floor of the exact quotient: 0.1 is a
    double slightly above one tenth. *)
Example floor_div_tenth : float_floor_div 1 0.1 = Ok 9%float.
Proof. vm_compute. reflexivity. Qed.

Example floor_div_negative : float_floor_div (-7.5) 2 = Ok (-4)%float.
Proof. vm_compute. reflexivity. Qed.

Example floor_div_by_zero : float_floor_div 1 (-0) = Raise ZeroDivisionError.
Proof. vm_compute. reflexivity. Qed.

Example true_div_ints : long_true_divide 1 3 = Ok (1 / 3)%float.
Proof. vm_compute. reflexivity. Qed.

Example true_div_huge_ints : long_true_divide (10 ^ 400) (10 ^ 399) = Ok 10%float.
Proof. vm_compute. reflexivity. Qed.

Example int_too_large : py_mul (PyInt (10 ^ 400)) (PyFloat 0.65) = Raise OverflowError.
Proof. vm_compute. reflexivity. Qed.

Example float_product_overflows : py_mul (PyFloat 1e308) (PyInt 10) = Ok (PyFloat infinity).
Proof. vm_compute. reflexivity. Qed.

Example square_out_of_range : py_pow2 (PyFloat 1e200) = Raise OverflowError.
Proof. vm_compute. reflexivity. Qed.

Example format_half_even : PyFormat.float_format_3f 0.0625 = "0.062".
Proof. vm_compute. reflexivity. Qed.

Example format_int : PyFormat.format_3f (PyInt 1) = Ok "1.000".
Proof. vm_compute. reflexivity. Qed.

(** The three packages of the module and the lines it prints. *)
Example main_packages :
  map (fun p => t ← read_package p.1 p.2; main t) packages =
  [ Ok "Тип тренировки: Swimming; Длительность: 1.000 ч.; Дистанция: 0.994 км; Ср. скорость: 1.000 км/ч; Потрачено ккал: 336.000.";
    Ok "Тип тренировки: Running; Длительность: 1.000 ч.; Дистанция: 9.750 км; Ср. скорость: 9.750 км/ч; Потрачено ккал: 699.750.";
    Ok "Тип тренировки: SportsWalking; Длительность: 1.000 ч.; Дистанция: 5.850 км; Ср. скорость: 5.850 км/ч; Потрачено ккал: 157.500." ].
Proof. vm_compute. reflexivity. Qed.

(** ** The result monad *)

Section Results.
Context {A B : Type}.

Lemma bind_Ok (k : A -> result B) (a : A) : (Ok a ≫= k) = k a.
Proof. reflexivity. Qed.

Lemma bind_Raise (k : A -> result B) (e : exn) : (Raise e ≫= k) = Raise e.
Proof. reflexivity. Qed.

Lemma bind_returns (k : A -> result B) (m : result A) :
  returns m = false -> returns (m ≫= k) = false.
Proof. destruct m; [discriminate | reflexivity]. Qed.

Lemma bind_inv (k : A -> result B) (m : result A) (b : B) :
  m ≫= k = Ok b -> exists a, m = Ok a /\ k a = Ok b.
Proof. destruct m as [a|e]; [exists a; auto | discriminate]. Qed.
End Results.

Lemma Ok_inj {A} (a b : A) : Ok a = Ok b -> a = b.
Proof. congruence. Qed.

Lemma PyFloat_inj (x y : float) : PyFloat x = PyFloat y -> x = y.
Proof.
  intros H.
  exact (f_equal (fun v => match v with PyFloat f => f | _ => x end) H).
Qed.

(** Two doubles with different bits are different. *)
Lemma float_neq (x y : float) : Prim2SF x <> Prim2SF y -> x <> y.
Proof. intros H E. apply H. now rewrite E. Qed.

(** ** Arithmetic with a float operand *)

Section MixedArithmetic.
Variables (a b : pyval) (x y : float).
Hypothesis Ha : to_float a = Ok x.
Hypothesis Hb : to_float b = Ok y.

Lemma float_binop_Ok op : float_binop op a b = (r ← op x y; mret (PyFloat r)).
Proof. unfold float_binop. now rewrite Ha, Hb. Qed.

Lemma py_mul_float_l : py_mul (PyFloat x) b = Ok (PyFloat (x * y)).
Proof.
  destruct b; try discriminate; unfold py_mul, float_binop;
    change (to_float (PyFloat x)) with (Ok x); now rewrite bind_Ok, Hb.
Qed.

Lemma py_mul_float_r : py_mul a (PyFloat y) = Ok (PyFloat (x * y)).
Proof.
  destruct a; try discriminate; unfold py_mul, float_binop; now rewrite Ha.
Qed.

Lemma py_add_float_l : py_add (PyFloat x) b = Ok (PyFloat (x + y)).
Proof.
  destruct b; try discriminate; unfold py_add, float_binop;
    change (to_float (PyFloat x)) with (Ok x); now rewrite bind_Ok, Hb.
Qed.

Lemma py_sub_float_l : py_sub (PyFloat x) b = Ok (PyFloat (x - y)).
Proof.
  destruct b; try discriminate; unfold py_sub, float_binop;
    change (to_float (PyFloat x)) with (Ok x); now rewrite bind_Ok, Hb.
Qed.

Lemma py_truediv_float_l :
  py_truediv (PyFloat x) b = (r ← float_div x y; mret (PyFloat r)).
Proof.
  destruct b; try discriminate; unfold py_truediv, float_binop;
    change (to_float (PyFloat x)) with (Ok x); now rewrite bind_Ok, Hb.
Qed.

Lemma py_floordiv_float_l :
  py_floordiv (PyFloat x) b = (r ← float_floor_div x y; mret (PyFloat r)).
Proof.
  destruct b; try discriminate; unfold py_floordiv, float_binop;
    change (to_float (PyFloat x)) with (Ok x); now rewrite bind_Ok, Hb.
Qed.
End MixedArithmetic.

Lemma to_float_M_IN_KM : to_float M_IN_KM = Ok 1000%float.
Proof. reflexivity. Qed.

Lemma to_float_HOUR : to_float HOUR = Ok 60%float.
Proof. reflexivity. Qed.

Lemma to_float_COEF_CALORIE_1 : to_float COEF_CALORIE_1 = Ok 18%float.
Proof. reflexivity. Qed.

Lemma to_float_COEF_CALORIE_2 : to_float COEF_CALORIE_2 = Ok 20%float.
Proof. reflexivity. Qed.

Lemma to_float_COEF_CALORIE_002 : to_float COEF_CALORIE_002 = Ok 2%float.
Proof. reflexivity. Qed.

(** A number that is zero converts to a zero double. *)
Lemma to_float_zero (v : pyval) :
  py_is_zero v = true -> exists z, to_float v = Ok z /\ is_zero z = true.
Proof.
  destruct v as [n|f|]; simpl; intros H; try discriminate.
  - apply Z.eqb_eq in H; subst n. now exists 0%float.
  - now exists f.
Qed.

(** Dividing a float by a number that is zero raises; dividing anything by
    it never returns. *)
Lemma py_truediv_float_zero (x : float) (d : pyval) :
  py_is_zero d = true -> py_truediv (PyFloat x) d = Raise ZeroDivisionError.
Proof.
  intros H. destruct (to_float_zero d H) as (z & Hz & Z0).
  rewrite (py_truediv_float_l d x z Hz). unfold float_div. now rewrite Z0.
Qed.

Lemma py_floordiv_float_zero (x : float) (d : pyval) :
  py_is_zero d = true -> py_floordiv (PyFloat x) d = Raise ZeroDivisionError.
Proof.
  intros H. destruct (to_float_zero d H) as (z & Hz & Z0).
  rewrite (py_floordiv_float_l d x z Hz). unfold float_floor_div. now rewrite Z0.
Qed.

Lemma py_truediv_zero (v d : pyval) :
  py_is_zero d = true -> returns (py_truediv v d) = false.
Proof.
  intros H. destruct v as [n|x|].
  - destruct d as [m|y|]; simpl in H; try discriminate.
    + simpl. unfold long_true_divide. now rewrite H.
    + unfold py_truediv, float_binop. destruct (to_float (PyInt n)); [|reflexivity].
      change (to_float (PyFloat y)) with (Ok y). rewrite !bind_Ok.
      unfold float_div. now rewrite H.
  - now rewrite py_truediv_float_zero.
  - reflexivity.
Qed.

(** True division gives a float, whatever the operands. *)
Lemma py_truediv_is_float (u v r : pyval) :
  py_truediv u v = Ok r -> exists f, r = PyFloat f.
Proof.
  unfold py_truediv, float_binop.
  destruct u, v; try discriminate; intros H;
    repeat (apply bind_inv in H; destruct H as (? & _ & H));
    injection H as <-; eauto.
Qed.

(** With a float on either side, [*] and [+] give a float. *)
Lemma py_mul_float_is_float (x : float) (v r : pyval) :
  py_mul (PyFloat x) v = Ok r -> exists f, r = PyFloat f.
Proof.
  unfold py_mul, float_binop.
  destruct v; try discriminate; intros H;
    repeat (apply bind_inv in H; destruct H as (? & _ & H));
    injection H as <-; eauto.
Qed.

Lemma py_add_float_is_float (x : float) (v r : pyval) :
  py_add (PyFloat x) v = Ok r -> exists f, r = PyFloat f.
Proof.
  unfold py_add, float_binop.
  destruct v; try discriminate; intros H;
    repeat (apply bind_inv in H; destruct H as (? & _ & H));
    injection H as <-; eauto.
Qed.

(** ** The dispatcher *)

Lemma traning_types_lookup (workout_type : string) (c : class) :
  traning_types !! workout_type = Some c <-> (workout_type, c) ∈ recognized_codes.
Proof.
  unfold traning_types, recognized_codes. split.
  - intros H.
    destruct (decide (workout_type = "SWM")) as [->|N1];
      [ rewrite lookup_insert_eq in H; injection H as <-; set_solver |].
    rewrite lookup_insert_ne in H by congruence.
    destruct (decide (workout_type = "RUN")) as [->|N2];
      [ rewrite lookup_insert_eq in H; injection H as <-; set_solver |].
    rewrite lookup_insert_ne in H by congruence.
    destruct (decide (workout_type = "WLK")) as [->|N3];
      [ rewrite lookup_singleton_eq in H; injection H as <-; set_solver |].
    rewrite lookup_singleton_ne in H by congruence. discriminate.
  - rewrite !elem_of_cons, elem_of_nil.
    intros [E|[E|[E|[]]]]; simplify_eq; reflexivity.
Qed.

Lemma construct_arity (c : class) (data : list pyval) :
  (length data = arity c ->
   exists t, construct c data = Ok t /\ __class__ t = c /\ fields t = data)
  /\ (length data <> arity c -> construct c data = Raise TypeError).
Proof.
  split.
  - intros L.
    destruct c, data as [|a [|d [|w [|h [|n [|? ?]]]]]]; simpl in L;
      try lia; eexists; repeat split; reflexivity.
  - intros L.
    destruct c, data as [|a [|d [|w [|h [|n [|? ?]]]]]];
      try reflexivity; exfalso; apply L; reflexivity.
Qed.

(** C1, as amended: the package [("SWM", [720, 1, 80, 25, 40])] is read as the
    [Swimming] object built directly from these five values in order; its
    distance is [720 * 1.38 / 1000] evaluated in double precision, which is
    0.9935999999999999 (the double just below 0.9936, shown as 0.994 with
    three decimals); its mean speed is 1.0 and its calories are 336.0. *)
Theorem scenario_1_swimming :
  let swm := Swimming (PyInt 720) (PyInt 1) (PyInt 80) (PyInt 25) (PyInt 40) in
  read_package "SWM" [PyInt 720; PyInt 1; PyInt 80; PyInt 25; PyInt 40] = Ok swm
  /\ get_distance swm = Ok (PyFloat (720 * 1.38 / 1000))
  /\ (720 * 1.38 / 1000)%float = 0.9935999999999999%float
  /\ PyFormat.float_format_3f (720 * 1.38 / 1000) = "0.994"
  /\ get_mean_speed swm = Ok (PyFloat 1.0)
  /\ get_spent_calories swm = Ok (PyFloat 336.0).
Proof. repeat split; vm_compute; reflexivity. Qed.

(** C1, as stated, fails: the distance the code returns is not the double
    0.9936. *)
Lemma scenario_1_distance_is_not_0_9936 :
  let swm := Swimming (PyInt 720) (PyInt 1) (PyInt 80) (PyInt 25) (PyInt 40) in
  ~ (read_package "SWM" [PyInt 720; PyInt 1; PyInt 80; PyInt 25; PyInt 40] = Ok swm
     /\ get_distance swm = Ok (PyFloat 0.9936)
     /\ get_mean_speed swm = Ok (PyFloat 1.0)
     /\ get_spent_calories swm = Ok (PyFloat 336.0)).
Proof.
  intros swm (_ & H & _). vm_compute in H.
  apply Ok_inj, PyFloat_inj in H. revert H.
  apply float_neq. vm_compute. discriminate.
Qed.

(** C3: a workout code other than "SWM", "RUN" and "WLK" makes [read_package]
    raise [KeyError("Workout not found")], whatever the data; no object is
    built. *)
Theorem read_package_unknown_code (workout_type : string) (data : list pyval) :
  workout_type ∉ ({["SWM"; "RUN"; "WLK"]} : gset string) ->
  read_package workout_type data = Raise KeyError.
Proof.
  intros H. unfold read_package.
  destruct (traning_types !! workout_type) as [c|] eqn:E; [|reflexivity].
  exfalso. apply H. apply traning_types_lookup in E.
  unfold recognized_codes in E. rewrite !elem_of_cons, elem_of_nil in E.
  destruct E as [E|[E|[E|[]]]]; simplify_eq; set_solver.
Qed.

Lemma read_package_unknown_code_witness :
  ("XYZ" ∉ ({["SWM"; "RUN"; "WLK"]} : gset string))
  /\ read_package "XYZ" [PyInt 9000; PyInt 1; PyInt 75] = Raise KeyError.
Proof.
  assert (N : "XYZ" ∉ ({["SWM"; "RUN"; "WLK"]} : gset string))
    by (apply (bool_decide_unpack _); vm_compute; exact I).
  split; [exact N | exact (read_package_unknown_code "XYZ" _ N)].
Defined.

(** C4: for each of the three codes, [read_package] calls the class of that
    code on the data: a list of as many values as the class has fields gives
    the object whose fields are these values in order (action, duration,
    weight, then height for [SportsWalking], or length_pool and count_pool
    for [Swimming]); a list of any other length makes the call raise
    [TypeError]. *)
Theorem read_package_binds_positionally
    (workout_type : string) (c : class) (data : list pyval) :
  (workout_type, c) ∈ recognized_codes ->
  (length data = arity c ->
   exists t, read_package workout_type data = Ok t
     /\ __class__ t = c /\ fields t = data
     /\ data !! 0%nat = Some (action t)
     /\ data !! 1%nat = Some (duration t)
     /\ data !! 2%nat = Some (weight t))
  /\ (length data <> arity c -> read_package workout_type data = Raise TypeError).
Proof.
  intros H. apply traning_types_lookup in H.
  unfold read_package. rewrite H.
  destruct (construct_arity c data) as [Hok Herr]. split; [|exact Herr].
  intros L. destruct (Hok L) as (t & Ht & Hc & Hf).
  exists t. repeat split; try assumption; rewrite <- Hf; destruct t; reflexivity.
Qed.

Lemma read_package_binds_positionally_witness :
  (exists t, read_package "WLK" [PyInt 9000; PyInt 1; PyInt 75; PyInt 180] = Ok t
     /\ __class__ t = SportsWalking_
     /\ fields t = [PyInt 9000; PyInt 1; PyInt 75; PyInt 180]
     /\ [PyInt 9000; PyInt 1; PyInt 75; PyInt 180] !! 0%nat = Some (action t)
     /\ [PyInt 9000; PyInt 1; PyInt 75; PyInt 180] !! 1%nat = Some (duration t)
     /\ [PyInt 9000; PyInt 1; PyInt 75; PyInt 180] !! 2%nat = Some (weight t))
  /\ read_package "WLK" [PyInt 9000; PyInt 1; PyInt 75] = Raise TypeError.
Proof.
  assert (H : ("WLK", SportsWalking_) ∈ recognized_codes)
    by (unfold recognized_codes; set_solver).
  split.
  - apply (proj1 (read_package_binds_positionally "WLK" SportsWalking_
        [PyInt 9000; PyInt 1; PyInt 75; PyInt 180] H)). reflexivity.
  - apply (proj2 (read_package_binds_positionally "WLK" SportsWalking_
        [PyInt 9000; PyInt 1; PyInt 75] H)). simpl. lia.
Defined.

(** ** Distance *)

Lemma get_distance_unfold (self : training) :
  get_distance self =
  (x ← py_mul (action self) (LEN_STEP (__class__ self)); py_truediv x M_IN_KM).
Proof. destruct self; reflexivity. Qed.

Lemma get_distance_Ok (self : training) (x s : float) :
  to_float (action self) = Ok x ->
  LEN_STEP (__class__ self) = PyFloat s ->
  get_distance self = Ok (PyFloat (x * s / 1000)).
Proof.
  intros Hx Hs. rewrite get_distance_unfold, Hs.
  rewrite (py_mul_float_r _ x s Hx), bind_Ok.
  now rewrite (py_truediv_float_l _ _ _ to_float_M_IN_KM).
Qed.

Lemma get_distance_Raise (self : training) (e : exn) :
  to_float (action self) = Raise e -> get_distance self = Raise e.
Proof.
  intros He. rewrite get_distance_unfold.
  assert (Hs : exists s, LEN_STEP (__class__ self) = PyFloat s)
    by (destruct (__class__ self); eexists; reflexivity).
  destruct Hs as [s ->].
  destruct (action self) as [n|x|]; simpl in He |- *.
  - unfold float_binop. simpl. now rewrite He.
  - discriminate.
  - now injection He as <-.
Qed.

Lemma get_distance_is_float (self : training) (v : pyval) :
  get_distance self = Ok v -> exists x, v = PyFloat x.
Proof.
  rewrite get_distance_unfold. intros H.
  apply bind_inv in H. destruct H as (u & _ & H).
  now apply py_truediv_is_float in H.
Qed.

(** C6: [get_distance] returns [action * LEN_STEP / M_IN_KM] with the step
    length of the class of the record, 0.65 m for [Running] and
    [SportsWalking] and 1.38 m for [Swimming], and 1000 m in a km.  The
    action enters the product as a float; when it has none (an int beyond
    the range of a double, or [None]) the exception of the conversion is
    what the method raises. *)
Theorem get_distance_formula :
  (forall a d w x, to_float a = Ok x ->
     get_distance (Running a d w) = Ok (PyFloat (x * 0.65 / 1000)))
  /\ (forall a d w h x, to_float a = Ok x ->
        get_distance (SportsWalking a d w h) = Ok (PyFloat (x * 0.65 / 1000)))
  /\ (forall a d w l n x, to_float a = Ok x ->
        get_distance (Swimming a d w l n) = Ok (PyFloat (x * 1.38 / 1000)))
  /\ (forall self e, to_float (action self) = Raise e ->
        get_distance self = Raise e).
Proof.
  repeat split; intros.
  - now apply get_distance_Ok.
  - now apply get_distance_Ok.
  - now apply get_distance_Ok.
  - now apply get_distance_Raise.
Qed.

Lemma get_distance_formula_witness :
  get_distance (Running (PyInt 15000) (PyInt 1) (PyInt 75)) = Ok (PyFloat 9.75)
  /\ get_distance (SportsWalking (PyInt 9000) (PyFloat 1.5) (PyInt 75) (PyInt 180))
     = Ok (PyFloat (9000 * 0.65 / 1000))
  /\ get_distance (Swimming (PyFloat 720) (PyInt 1) (PyInt 80) (PyInt 25) (PyInt 40))
     = Ok (PyFloat (720 * 1.38 / 1000))
  /\ get_distance (Running (PyInt (10 ^ 400)) (PyInt 1) (PyInt 75))
     = Raise OverflowError.
Proof.
  destruct get_distance_formula as (R & W & S & E).
  split; [|split; [|split]].
  - exact (R (PyInt 15000) (PyInt 1) (PyInt 75) 15000%float eq_refl).
  - exact (W (PyInt 9000) (PyFloat 1.5) (PyInt 75) (PyInt 180) 9000%float eq_refl).
  - exact (S (PyFloat 720) (PyInt 1) (PyInt 80) (PyInt 25) (PyInt 40) 720%float eq_refl).
  - apply (E (Running (PyInt (10 ^ 400)) (PyInt 1) (PyInt 75))).
    vm_compute. reflexivity.
Defined.

(** ** Mean speed *)

Lemma Swimming_get_mean_speed_ints (d : pyval) (l n : Z) (q y : float) :
  long_true_divide (l * n) 1000 = Ok q ->
  to_float d = Ok y -> is_zero y = false ->
  Swimming_get_mean_speed d (PyInt l) (PyInt n) = Ok (PyFloat (q / y)).
Proof.
  intros Hq Hy Hz. unfold Swimming_get_mean_speed.
  change (py_mul (PyInt l) (PyInt n)) with (Ok (PyInt (l * n))).
  rewrite bind_Ok.
  change (py_truediv (PyInt (l * n)) M_IN_KM)
    with (r ← long_true_divide (l * n) 1000; mret (PyFloat r)).
  rewrite Hq, !bind_Ok.
  rewrite (py_truediv_float_l _ _ _ Hy). unfold float_div. now rewrite Hz.
Qed.

Lemma Swimming_get_mean_speed_floats (d n : pyval) (l x y : float) :
  to_float n = Ok x -> to_float d = Ok y -> is_zero y = false ->
  Swimming_get_mean_speed d (PyFloat l) n = Ok (PyFloat (l * x / 1000 / y)).
Proof.
  intros Hx Hy Hz. unfold Swimming_get_mean_speed.
  rewrite (py_mul_float_l _ _ _ Hx), bind_Ok.
  rewrite (py_truediv_float_l _ _ _ to_float_M_IN_KM).
  change (float_div (l * x) 1000) with (Ok (l * x / 1000)%float).
  rewrite !bind_Ok.
  rewrite (py_truediv_float_l _ _ _ Hy). unfold float_div. now rewrite Hz.
Qed.

(** C7: the mean speed of a [Swimming] record is
    [length_pool * count_pool / M_IN_KM / duration]: a function of these three
    fields alone, so that two records that differ in [action] (or in
    [weight]) have the same mean speed, and no step length enters it.  With
    int pool fields, as declared, the product is exact, its quotient by
    1000 is the int true division, and the result is that quotient divided
    by the duration; with a float pool length the three operations are
    float operations.  For the package (720, 1, 80, 25, 40) the speed is
    1.0, where the formula of the base class, distance over duration, would
    give 0.9935999999999999. *)
Theorem swimming_mean_speed :
  (forall a d w l n,
     get_mean_speed (Swimming a d w l n) = Swimming_get_mean_speed d l n)
  /\ (forall a a' d w w' l n,
        get_mean_speed (Swimming a d w l n) = get_mean_speed (Swimming a' d w' l n))
  /\ (forall a d w (l n : Z) q y,
        long_true_divide (l * n) 1000 = Ok q ->
        to_float d = Ok y -> is_zero y = false ->
        get_mean_speed (Swimming a d w (PyInt l) (PyInt n)) = Ok (PyFloat (q / y)))
  /\ (forall a d w l n x y,
        to_float n = Ok x -> to_float d = Ok y -> is_zero y = false ->
        get_mean_speed (Swimming a d w (PyFloat l) n)
        = Ok (PyFloat (l * x / 1000 / y)))
  /\ (let swm := Swimming (PyInt 720) (PyInt 1) (PyInt 80) (PyInt 25) (PyInt 40) in
      get_mean_speed swm = Ok (PyFloat 1.0)
      /\ Training_get_mean_speed swm = Ok (PyFloat (720 * 1.38 / 1000 / 1))).
Proof.
  split; [reflexivity|]. split; [reflexivity|]. split; [|split].
  - intros. now apply Swimming_get_mean_speed_ints.
  - intros. now apply Swimming_get_mean_speed_floats.
  - split; vm_compute; reflexivity.
Qed.

Lemma swimming_mean_speed_witness :
  get_mean_speed (Swimming (PyInt 720) (PyInt 2) (PyInt 80) (PyInt 25) (PyInt 40))
  = Ok (PyFloat 0.5)
  /\ get_mean_speed (Swimming (PyInt 720) (PyInt 2) (PyInt 80) (PyFloat 25) (PyInt 40))
     = Ok (PyFloat 0.5)
  /\ get_mean_speed (Swimming (PyInt 720) (PyInt 2) (PyInt 80) (PyInt 25) (PyInt 40))
     = get_mean_speed (Swimming (PyInt 7) (PyInt 2) (PyInt 80) (PyInt 25) (PyInt 40)).
Proof.
  destruct swimming_mean_speed as (_ & A & I & F & _).
  split; [|split].
  - exact (I (PyInt 720) (PyInt 2) (PyInt 80) 25 40 1%float 2%float
             eq_refl eq_refl eq_refl).
  - exact (F (PyInt 720) (PyInt 2) (PyInt 80) 25%float (PyInt 40) 40%float 2%float
             eq_refl eq_refl eq_refl).
  - exact (A (PyInt 720) (PyInt 7) (PyInt 2) (PyInt 80) (PyInt 80) (PyInt 25) (PyInt 40)).
Defined.

(** ** Calories *)



(** The formulas of the two other subclasses, for the record. *)
Lemma Running_get_spent_calories_Ok (a d w : pyval) (s x z : float) :
  get_mean_speed (Running a d w) = Ok (PyFloat s) ->
  to_float w = Ok x -> to_float d = Ok z ->
  get_spent_calories (Running a d w)
  = Ok (PyFloat ((18 * s - 20) * x / 1000 * z * 60)).
Proof.
  intros Hs Hx Hz. unfold get_spent_calories. rewrite Hs, bind_Ok.
  rewrite (py_mul_float_r _ _ s to_float_COEF_CALORIE_1), bind_Ok.
  rewrite (py_sub_float_l _ _ _ to_float_COEF_CALORIE_2), bind_Ok.
  rewrite (py_mul_float_l _ _ _ Hx), bind_Ok.
  rewrite (py_truediv_float_l _ _ _ to_float_M_IN_KM).
  change (float_div ((18 * s - 20) * x) 1000)
    with (Ok ((18 * s - 20) * x / 1000)%float).
  rewrite !bind_Ok.
  rewrite (py_mul_float_l _ _ _ Hz), bind_Ok.
  now rewrite (py_mul_float_l _ _ _ to_float_HOUR).
Qed.

Lemma Swimming_get_spent_calories_Ok (a d w l n : pyval) (s x : float) :
  get_mean_speed (Swimming a d w l n) = Ok (PyFloat s) ->
  to_float w = Ok x ->
  get_spent_calories (Swimming a d w l n) = Ok (PyFloat ((s + 1.1) * 2 * x)).
Proof.
  intros Hs Hx. unfold get_spent_calories. rewrite Hs, bind_Ok.
  unfold COEF_CALORIE_001.
  rewrite (py_add_float_l (PyFloat 1.1) s 1.1 eq_refl), bind_Ok.
  rewrite (py_mul_float_l _ _ _ to_float_COEF_CALORIE_002), bind_Ok.
  now rewrite (py_mul_float_l _ _ _ Hx).
Qed.




Lemma py_add_float_r_is_float (v : pyval) (x : float) (r : pyval) :
  py_add v (PyFloat x) = Ok r -> exists f, r = PyFloat f.
Proof.
  unfold py_add, float_binop.
  destruct v; try discriminate; intros H;
    repeat (apply bind_inv in H; destruct H as (? & _ & H));
    injection H as <-; eauto.
Qed.

Lemma py_floordiv_zero (v d : pyval) :
  py_is_zero d = true -> returns (py_floordiv v d) = false.
Proof.
  intros H. destruct v as [n|x|].
  - destruct d as [m|y|]; simpl in H; try discriminate.
    + simpl. now rewrite H.
    + unfold py_floordiv, float_binop. destruct (to_float (PyInt n)); [|reflexivity].
      change (to_float (PyFloat y)) with (Ok y). rewrite !bind_Ok.
      unfold float_floor_div. now rewrite H.
  - now rewrite py_floordiv_float_zero.
  - reflexivity.
Qed.

Lemma get_mean_speed_unfold (self : training) :
  get_mean_speed self = (x ← mean_speed_dividend self; py_truediv x (duration self)).
Proof.
  destruct self; try reflexivity.
  simpl. unfold Swimming_get_mean_speed.
  now destruct (py_mul length_pool count_pool).
Qed.

Lemma get_mean_speed_is_float (self : training) (v : pyval) :
  get_mean_speed self = Ok v -> exists x, v = PyFloat x.
Proof.
  rewrite get_mean_speed_unfold. intros H.
  apply bind_inv in H. destruct H as (u & _ & H).
  now apply py_truediv_is_float in H.
Qed.

Lemma mean_speed_dividend_is_float (self : training) (v : pyval) :
  mean_speed_dividend self = Ok v -> exists x, v = PyFloat x.
Proof.
  destruct self; simpl; try apply get_distance_is_float.
  intros H. apply bind_inv in H. destruct H as (u & _ & H).
  now apply py_truediv_is_float in H.
Qed.

(** The calories of a subclass, when there are any, are a float. *)
Lemma get_spent_calories_is_float (self : training) (v : pyval) :
  __class__ self <> Training_ ->
  get_spent_calories self = Ok v -> exists x, v = PyFloat x.
Proof.
  intros Hc H. destruct self as [a d w|a d w|a d w h|a d w l n];
    [now destruct Hc| | |]; unfold get_spent_calories in H.
  - (* Running *)
    do 6 (apply bind_inv in H; destruct H as (? & ? & H)).
    match goal with E : py_truediv _ _ = Ok ?u |- _ =>
      apply py_truediv_is_float in E; destruct E as [? ->] end.
    match goal with E : py_mul (PyFloat _) _ = Ok ?u |- _ =>
      apply py_mul_float_is_float in E; destruct E as [? ->] end.
    now apply py_mul_float_is_float in H.
  - (* SportsWalking *)
    do 8 (apply bind_inv in H; destruct H as (? & ? & H)).
    match goal with E : py_mul COEF_CALORIE_01 _ = Ok ?u |- _ =>
      apply py_mul_float_is_float in E; destruct E as [? ->] end.
    match goal with E : py_add (PyFloat _) _ = Ok ?u |- _ =>
      apply py_add_float_is_float in E; destruct E as [? ->] end.
    match goal with E : py_mul (PyFloat _) _ = Ok ?u |- _ =>
      apply py_mul_float_is_float in E; destruct E as [? ->] end.
    now apply py_mul_float_is_float in H.
  - (* Swimming *)
    do 3 (apply bind_inv in H; destruct H as (? & ? & H)).
    match goal with E : py_add _ COEF_CALORIE_001 = Ok ?u |- _ =>
      apply py_add_float_r_is_float in E; destruct E as [? ->] end.
    match goal with E : py_mul (PyFloat _) _ = Ok ?u |- _ =>
      apply py_mul_float_is_float in E; destruct E as [? ->] end.
    now apply py_mul_float_is_float in H.
Qed.

(** C8: [Training.get_spent_calories] has no formula: its body is [pass], and
    for every base-class object it gives [None], which the message cannot
    render; [Running], [SportsWalking] and [Swimming] each define the method,
    and what it returns there is never [None] but a float, as it is for the
    three packages of the module. *)
Theorem get_spent_calories_base_and_variants :
  (forall a d w, get_spent_calories (Training a d w) = Ok PyNone)
  /\ (forall a d w, returns (main (Training a d w)) = false)
  /\ (forall self v, __class__ self <> Training_ ->
        get_spent_calories self = Ok v -> exists x, v = PyFloat x)
  /\ (get_spent_calories (Running (PyInt 15000) (PyInt 1) (PyInt 75))
        = Ok (PyFloat 699.75)
      /\ get_spent_calories (SportsWalking (PyInt 9000) (PyInt 1) (PyInt 75) (PyInt 180))
        = Ok (PyFloat 157.50000000000003)
      /\ get_spent_calories (Swimming (PyInt 720) (PyInt 1) (PyInt 80) (PyInt 25) (PyInt 40))
        = Ok (PyFloat 336.0)).
Proof.
  split; [reflexivity|]. split; [|split].
  - intros a d w. unfold main, show_training_info.
    destruct (get_distance (Training a d w)) as [l|]; [|reflexivity].
    destruct (get_mean_speed (Training a d w)) as [s|]; [|reflexivity].
    rewrite !bind_Ok. unfold InfoMessage.get_message. simpl.
    destruct (PyFormat.format_3f d); [|reflexivity].
    destruct (PyFormat.format_3f l); [|reflexivity].
    destruct (PyFormat.format_3f s); reflexivity.
  - exact get_spent_calories_is_float.
  - repeat split; vm_compute; reflexivity.
Qed.

Lemma get_spent_calories_base_and_variants_witness :
  exists x, get_spent_calories (Running (PyInt 15000) (PyFloat 1.5) (PyInt 75))
            = Ok (PyFloat x).
Proof.
  destruct get_spent_calories_base_and_variants as (_ & _ & F & _).
  assert (E : get_spent_calories (Running (PyInt 15000) (PyFloat 1.5) (PyInt 75))
              = Ok (PyFloat ((18 * (15000 * 0.65 / 1000 / 1.5) - 20) * 75
                             / 1000 * 1.5 * 60)))
    by (vm_compute; reflexivity).
  assert (N : __class__ (Running (PyInt 15000) (PyFloat 1.5) (PyInt 75)) <> Training_)
    by (simpl; discriminate).
  destruct (F _ _ N E) as [x Hx].
  exists x. rewrite E. f_equal. exact Hx.
Defined.

(** ** Division by zero *)

Lemma get_mean_speed_zero_duration (self : training) :
  py_is_zero (duration self) = true ->
  returns (get_mean_speed self) = false
  /\ (forall x, mean_speed_dividend self = Ok x ->
        get_mean_speed self = Raise ZeroDivisionError).
Proof.
  intros Hd. rewrite get_mean_speed_unfold. split.
  - destruct (mean_speed_dividend self) as [x|]; [|reflexivity].
    rewrite bind_Ok. now apply py_truediv_zero.
  - intros x Hx. rewrite Hx, bind_Ok.
    destruct (mean_speed_dividend_is_float _ _ Hx) as [f ->].
    now apply py_truediv_float_zero.
Qed.

Lemma get_spent_calories_propagates (self : training) (e : exn) :
  __class__ self <> Training_ ->
  (__class__ self = SportsWalking_ -> returns (to_float (weight self)) = true) ->
  get_mean_speed self = Raise e -> get_spent_calories self = Raise e.
Proof.
  intros Hc Hw He. destruct self as [a d w|a d w|a d w h|a d w l n];
    [now destruct Hc| | |]; unfold get_spent_calories.
  - now rewrite He.
  - specialize (Hw eq_refl). simpl in Hw.
    destruct (to_float w) as [y|] eqn:Hy; [|discriminate].
    unfold COEF_CALORIE_01. rewrite (py_mul_float_l _ _ _ Hy), bind_Ok.
    now rewrite He.
  - now rewrite He.
Qed.

Lemma get_spent_calories_no_speed (self : training) :
  __class__ self <> Training_ ->
  returns (get_mean_speed self) = false ->
  returns (get_spent_calories self) = false.
Proof.
  intros Hc He. destruct self as [a d w|a d w|a d w h|a d w l n];
    [now destruct Hc| | |]; unfold get_spent_calories.
  - now apply bind_returns.
  - destruct (py_mul COEF_CALORIE_01 w); [|reflexivity].
    rewrite bind_Ok. now apply bind_returns.
  - now apply bind_returns.
Qed.

Lemma SportsWalking_zero_height (a d w h : pyval) :
  py_is_zero h = true ->
  returns (get_spent_calories (SportsWalking a d w h)) = false
  /\ (forall y s p, to_float w = Ok y ->
        get_mean_speed (SportsWalking a d w h) = Ok s -> py_pow2 s = Ok p ->
        get_spent_calories (SportsWalking a d w h) = Raise ZeroDivisionError).
Proof.
  intros Hh. unfold get_spent_calories. split.
  - destruct (py_mul COEF_CALORIE_01 w); [|reflexivity]. rewrite bind_Ok.
    destruct (get_mean_speed _); [|reflexivity]. rewrite bind_Ok.
    destruct (py_pow2 _) as [p|]; [|reflexivity]. rewrite bind_Ok.
    apply bind_returns. now apply py_floordiv_zero.
  - intros y s p Hy Hs Hp. unfold COEF_CALORIE_01.
    rewrite (py_mul_float_l _ _ _ Hy), bind_Ok, Hs, bind_Ok, Hp, bind_Ok.
    destruct (get_mean_speed_is_float _ _ Hs) as [f ->].
    simpl in Hp. apply bind_inv in Hp. destruct Hp as (r & _ & Hp).
    injection Hp as <-.
    now rewrite py_floordiv_float_zero.
Qed.

(** C9: nothing stands between a zero divisor and the division.  With a
    duration that is zero, [get_mean_speed] never returns, in any class, and
    neither does [get_spent_calories] in the three subclasses; whenever the
    dividend of the speed has a value, what [get_mean_speed] raises is
    [ZeroDivisionError], and [get_spent_calories] lets it through (for
    [SportsWalking] after [0.035 * weight], which needs the weight to be a
    number).  With a height that is zero, [SportsWalking.get_spent_calories]
    never returns either, and raises [ZeroDivisionError] from its floor
    division whenever the square of the speed has a value. *)
Theorem zero_divisor_is_divided :
  (forall self, py_is_zero (duration self) = true ->
     returns (get_mean_speed self) = false
     /\ (__class__ self <> Training_ -> returns (get_spent_calories self) = false)
     /\ (forall x, mean_speed_dividend self = Ok x ->
           get_mean_speed self = Raise ZeroDivisionError
           /\ (__class__ self <> Training_ ->
               (__class__ self = SportsWalking_ ->
                returns (to_float (weight self)) = true) ->
               get_spent_calories self = Raise ZeroDivisionError)))
  /\ (forall a d w h, py_is_zero h = true ->
        returns (get_spent_calories (SportsWalking a d w h)) = false
        /\ (forall y s p, to_float w = Ok y ->
              get_mean_speed (SportsWalking a d w h) = Ok s -> py_pow2 s = Ok p ->
              get_spent_calories (SportsWalking a d w h) = Raise ZeroDivisionError)).
Proof.
  split.
  - intros self Hd.
    destruct (get_mean_speed_zero_duration self Hd) as [Hr Hz].
    split; [exact Hr|]. split.
    + intros Hc. now apply get_spent_calories_no_speed.
    + intros x Hx. split; [now apply Hz with x|].
      intros Hc Hw. apply get_spent_calories_propagates; try assumption.
      now apply Hz with x.
  - exact SportsWalking_zero_height.
Qed.

Lemma zero_divisor_is_divided_witness :
  (get_mean_speed (Running (PyInt 15000) (PyInt 0) (PyInt 75))
     = Raise ZeroDivisionError
   /\ get_spent_calories (Running (PyInt 15000) (PyInt 0) (PyInt 75))
     = Raise ZeroDivisionError)
  /\ (get_mean_speed (Swimming (PyInt 720) (PyFloat (-0)) (PyInt 80) (PyInt 25) (PyInt 40))
        = Raise ZeroDivisionError
      /\ get_spent_calories
           (Swimming (PyInt 720) (PyFloat (-0)) (PyInt 80) (PyInt 25) (PyInt 40))
        = Raise ZeroDivisionError)
  /\ get_spent_calories (SportsWalking (PyInt 9000) (PyInt 1) (PyInt 75) (PyInt 0))
     = Raise ZeroDivisionError.
Proof.
  destruct zero_divisor_is_divided as [D H].
  split; [|split].
  - destruct (D (Running (PyInt 15000) (PyInt 0) (PyInt 75)) eq_refl)
      as (_ & _ & Z).
    destruct (Z (PyFloat 9.75) eq_refl) as [S C]. split; [exact S|].
    apply C; simpl; discriminate.
  - destruct (D (Swimming (PyInt 720) (PyFloat (-0)) (PyInt 80) (PyInt 25) (PyInt 40))
                eq_refl) as (_ & _ & Z).
    destruct (Z (PyFloat 1) eq_refl) as [S C]. split; [exact S|].
    apply C; simpl; discriminate.
  - destruct (H (PyInt 9000) (PyInt 1) (PyInt 75) (PyInt 0) eq_refl) as [_ Z].
    apply (Z 75%float (PyFloat (9000 * 0.65 / 1000 / 1))
             (PyFloat ((9000 * 0.65 / 1000 / 1) * (9000 * 0.65 / 1000 / 1))));
      vm_compute; reflexivity.
Defined.

(** ** The name of the training in the message *)

(** C10: the message names the class of the object: the training type of
    the [InfoMessage] built for an object read from a package is
    "Swimming" for the code SWM, "Running" for RUN and "SportsWalking" for
    WLK, and the line [get_message] returns starts with it, after the
    words of the template. *)
Theorem message_names_the_class
    (workout_type name : string) (data : list pyval)
    (t : training) (info : InfoMessage.t) :
  (workout_type, name) ∈
    [("SWM", "Swimming"); ("RUN", "Running"); ("WLK", "SportsWalking")] ->
  read_package workout_type data = Ok t ->
  show_training_info t = Ok info ->
  InfoMessage.training_type info = name
  /\ (forall line, InfoMessage.get_message info = Ok line ->
        exists rest, line = "Тип тренировки: " +:+ name +:+ "; " +:+ rest).
Proof.
  intros Hn Ht Hi.
  assert (Hc : (workout_type, __class__ t) ∈ recognized_codes
               /\ InfoMessage.training_type info = __name__ (__class__ t)).
  { split.
    - apply traning_types_lookup. unfold read_package in Ht.
      destruct (traning_types !! workout_type) as [c|]; [|discriminate].
      f_equal. destruct (construct_arity c data) as [Hok Herr].
      destruct (decide (length data = arity c)) as [L|L].
      + destruct (Hok L) as (t' & Ht' & Hc' & _). congruence.
      + rewrite (Herr L) in Ht. discriminate.
    - unfold show_training_info in Hi.
      do 3 (apply bind_inv in Hi; destruct Hi as (? & _ & Hi)).
      injection Hi as <-. reflexivity. }
  destruct Hc as [Hc Hname].
  assert (E : __name__ (__class__ t) = name).
  { unfold recognized_codes in Hc.
    rewrite !elem_of_cons, elem_of_nil in Hc.
    rewrite !elem_of_cons, elem_of_nil in Hn.
    destruct Hn as [E|[E|[E|[]]]];
      apply pair_equal_spec in E; destruct E as [-> ->];
      destruct Hc as [E|[E|[E|[]]]];
      apply pair_equal_spec in E; destruct E as [E1 E2];
      try discriminate E1; rewrite E2; reflexivity. }
  split; [congruence|].
  intros line Hl. unfold InfoMessage.get_message in Hl.
  do 4 (apply bind_inv in Hl; destruct Hl as (? & _ & Hl)).
  injection Hl as <-. rewrite Hname, E. eexists. reflexivity.
Qed.

Lemma message_names_the_class_witness :
  exists rest,
    main (SportsWalking (PyInt 9000) (PyInt 1) (PyInt 75) (PyInt 180))
    = Ok ("Тип тренировки: " +:+ "SportsWalking" +:+ "; " +:+ rest).
Proof.
  assert (Hn : ("WLK", "SportsWalking") ∈
    [("SWM", "Swimming"); ("RUN", "Running"); ("WLK", "SportsWalking")])
    by set_solver.
  destruct (message_names_the_class "WLK" "SportsWalking"
              [PyInt 9000; PyInt 1; PyInt 75; PyInt 180]
              (SportsWalking (PyInt 9000) (PyInt 1) (PyInt 75) (PyInt 180))
              (InfoMessage.mk "SportsWalking" (PyInt 1)
                 (PyFloat (9000 * 0.65 / 1000)) (PyFloat (9000 * 0.65 / 1000 / 1))
                 (PyFloat 157.50000000000003))
              Hn eq_refl eq_refl) as [_ Hline].
  destruct (Hline "Тип тренировки: SportsWalking; Длительность: 1.000 ч.; Дистанция: 5.850 км; Ср. скорость: 5.850 км/ч; Потрачено ккал: 157.500."
              eq_refl) as [rest Hrest].
  exists rest. rewrite <- Hrest. reflexivity.
Defined.

(** ** The message *)

Section ThreeDecimals.
Import PyFormat.









Lemma format_3f_Ok (v : pyval) (x : float) :
  to_float v = Ok x -> format_3f v = Ok (float_format_3f x).
Proof.
  destruct v; try discriminate; intros H; unfold format_3f; now rewrite H.
Qed.

End ThreeDecimals.




(** * Further properties of the module *)

(** ** Reading a package, continued *)

Lemma read_package_inv (workout_type : string) (data : list pyval) (t : training) :
  read_package workout_type data = Ok t ->
  (workout_type, __class__ t) ∈ recognized_codes
  /\ length data = arity (__class__ t) /\ fields t = data.
Proof.
  unfold read_package. intros H.
  destruct (traning_types !! workout_type) as [c|] eqn:E; [|discriminate].
  destruct (construct_arity c data) as [Hok Herr].
  destruct (decide (length data = arity c)) as [L|L].
  - destruct (Hok L) as (t' & Ht' & Hc & Hf).
    assert (t' = t) by congruence. subst t'.
    rewrite Hc. split; [now apply traning_types_lookup | now split].
  - rewrite (Herr L) in H. discriminate.
Qed.

(** X1: the outcomes of [read_package].  It returns an object exactly when
    the code is one of the three keys and the data has as many values as the
    class of that key has fields; it raises [KeyError] exactly when the code
    is not a key, and the only other exception it raises is the [TypeError]
    of the call; the object it returns is never an instance of the base
    class [Training] itself. *)
Theorem read_package_outcomes (workout_type : string) (data : list pyval) :
  (returns (read_package workout_type data) = true <->
   exists c, (workout_type, c) ∈ recognized_codes /\ length data = arity c)
  /\ (read_package workout_type data = Raise KeyError <->
      workout_type ∉ ({["SWM"; "RUN"; "WLK"]} : gset string))
  /\ (forall e, read_package workout_type data = Raise e ->
        e = KeyError \/ e = TypeError)
  /\ (forall t, read_package workout_type data = Ok t ->
        __class__ t <> Training_).
Proof.
  split; [|split; [|split]].
  - split.
    + destruct (read_package workout_type data) as [t|] eqn:E; [|discriminate].
      intros _. apply read_package_inv in E. destruct E as (Hc & L & _).
      now exists (__class__ t).
    + intros (c & Hc & L). apply traning_types_lookup in Hc.
      unfold read_package. rewrite Hc.
      destruct (proj1 (construct_arity c data) L) as (t & -> & _). reflexivity.
  - unfold read_package. split.
    + destruct (traning_types !! workout_type) as [c|] eqn:E.
      * intros H. exfalso. revert H.
        destruct c, data as [|a [|d [|w [|h [|n [|? ?]]]]]]; discriminate.
      * intros _ Hin.
        assert (Hc : exists c, (workout_type, c) ∈ recognized_codes).
        { unfold recognized_codes.
          rewrite !elem_of_union, !elem_of_singleton in Hin.
          destruct Hin as [[->| ->]| ->];
            [exists Swimming_ | exists Running_ | exists SportsWalking_];
            set_solver. }
        destruct Hc as [c Hc]. apply traning_types_lookup in Hc. congruence.
    + intros Hn.
      destruct (traning_types !! workout_type) as [c|] eqn:E; [|reflexivity].
      exfalso. apply Hn. apply traning_types_lookup in E.
      unfold recognized_codes in E. rewrite !elem_of_cons, elem_of_nil in E.
      destruct E as [E|[E|[E|[]]]]; simplify_eq; set_solver.
  - intros e. unfold read_package.
    destruct (traning_types !! workout_type) as [c|]; [|intros [= <-]; now left].
    destruct c, data as [|a [|d [|w [|h [|n [|? ?]]]]]];
      try discriminate; intros [= <-]; now right.
  - intros t H. apply read_package_inv in H. destruct H as (Hc & _).
    unfold recognized_codes in Hc. rewrite !elem_of_cons, elem_of_nil in Hc.
    destruct Hc as [E|[E|[E|[]]]]; apply pair_equal_spec in E;
      destruct E as [_ ->]; discriminate.
Qed.

Lemma read_package_outcomes_witness :
  returns (read_package "RUN" [PyInt 15000; PyInt 1; PyInt 75]) = true
  /\ read_package "RUN" [PyInt 15000; PyInt 1] <> Raise KeyError.
Proof.
  split.
  - apply (proj1 (read_package_outcomes "RUN" [PyInt 15000; PyInt 1; PyInt 75])).
    exists Running_. split; [unfold recognized_codes; set_solver | reflexivity].
  - intros H.
    apply (proj1 (proj2 (read_package_outcomes "RUN" [PyInt 15000; PyInt 1]))) in H.
    apply H. set_solver.
Defined.

(** X2: reading is the inverse of taking the fields apart.  For every object
    of one of the three subclasses, [read_package] on the code of its class
    and on its fields in declaration order gives back that object; and the
    data behind an object that was read are its fields, so that two lists
    read as the same object under one code are equal. *)
Theorem read_package_fields_round_trip :
  (forall workout_type t, (workout_type, __class__ t) ∈ recognized_codes ->
     read_package workout_type (fields t) = Ok t)
  /\ (forall workout_type data data' t,
        read_package workout_type data = Ok t ->
        read_package workout_type data' = Ok t -> data = data').
Proof.
  split.
  - intros workout_type t H. apply traning_types_lookup in H.
    unfold read_package. rewrite H. destruct t; reflexivity.
  - intros workout_type data data' t H H'.
    apply read_package_inv in H, H'.
    destruct H as (_ & _ & <-), H' as (_ & _ & <-). reflexivity.
Qed.

Lemma read_package_fields_round_trip_witness :
  read_package "SWM"
    (fields (Swimming (PyInt 720) (PyFloat 1.5) (PyInt 80) (PyInt 25) (PyInt 40)))
  = Ok (Swimming (PyInt 720) (PyFloat 1.5) (PyInt 80) (PyInt 25) (PyInt 40)).
Proof.
  apply (proj1 read_package_fields_round_trip).
  unfold recognized_codes. simpl. set_solver.
Defined.

(** ** The metrics, continued *)

Lemma Training_get_mean_speed_Ok (self : training) (x s z : float) :
  to_float (action self) = Ok x ->
  LEN_STEP (__class__ self) = PyFloat s ->
  to_float (duration self) = Ok z -> is_zero z = false ->
  Training_get_mean_speed self = Ok (PyFloat (x * s / 1000 / z)).
Proof.
  intros Hx Hs Hz Hz0. unfold Training_get_mean_speed.
  rewrite (get_distance_Ok self x s Hx Hs), bind_Ok.
  rewrite (py_truediv_float_l _ _ _ Hz). unfold float_div. now rewrite Hz0.
Qed.

(** X3: the mean speed of the classes that inherit [Training.get_mean_speed]
    is the distance over the duration: for a [Running] or [SportsWalking]
    record (and for a base-class one) whose action and duration are numbers,
    the duration not zero, it is [action * 0.65 / 1000 / duration] in double
    precision; it does not depend on the weight or on the height. *)
Theorem inherited_mean_speed (a d : pyval) (x z : float) :
  to_float a = Ok x -> to_float d = Ok z -> is_zero z = false ->
  forall w h,
    get_mean_speed (Running a d w) = Ok (PyFloat (x * 0.65 / 1000 / z))
    /\ get_mean_speed (SportsWalking a d w h) = Ok (PyFloat (x * 0.65 / 1000 / z))
    /\ get_mean_speed (Training a d w) = Ok (PyFloat (x * 0.65 / 1000 / z)).
Proof.
  intros Hx Hz Hz0 w h.
  split; [|split]; now apply Training_get_mean_speed_Ok.
Qed.

Lemma inherited_mean_speed_witness :
  get_mean_speed (Running (PyInt 15000) (PyFloat 1.5) (PyInt 75)) = Ok (PyFloat 6.5).
Proof.
  exact (proj1 (inherited_mean_speed (PyInt 15000) (PyFloat 1.5)
                  15000%float 1.5%float eq_refl eq_refl eq_refl (PyInt 75) PyNone)).
Defined.

(** X4: the distance and the mean speed are floats whenever the methods
    return, whatever the class and whatever the fields: ints throughout, as
    in the packages of the module, still give floats, because both end in a
    true division. *)
Theorem distance_and_speed_are_floats (self : training) (v : pyval) :
  get_distance self = Ok v \/ get_mean_speed self = Ok v ->
  exists x, v = PyFloat x.
Proof.
  intros [H|H].
  - now apply get_distance_is_float with self.
  - now apply get_mean_speed_is_float with self.
Qed.

Lemma distance_and_speed_are_floats_witness :
  exists x, PyFloat 9.75 = PyFloat x.
Proof.
  apply (distance_and_speed_are_floats
           (Running (PyInt 15000) (PyInt 1) (PyInt 75)) (PyFloat 9.75)).
  left. vm_compute. reflexivity.
Defined.

(** X5: the calories of a [Running] record whose three fields are numbers,
    the duration not zero, are
    [(18 * mean_speed - 20) * weight / 1000 * duration * 60] in double
    precision, with the mean speed [action * 0.65 / 1000 / duration]. *)
Theorem running_calories_formula (a d w : pyval) (x z y : float) :
  to_float a = Ok x -> to_float d = Ok z -> is_zero z = false ->
  to_float w = Ok y ->
  get_spent_calories (Running a d w)
  = Ok (PyFloat ((18 * (x * 0.65 / 1000 / z) - 20) * y / 1000 * z * 60)).
Proof.
  intros Hx Hz Hz0 Hy.
  apply Running_get_spent_calories_Ok; try assumption.
  now apply (Training_get_mean_speed_Ok (Running a d w)).
Qed.

Lemma running_calories_formula_witness :
  get_spent_calories (Running (PyInt 15000) (PyInt 1) (PyInt 75)) = Ok (PyFloat 699.75).
Proof.
  exact (running_calories_formula (PyInt 15000) (PyInt 1) (PyInt 75)
           15000%float 1%float 75%float eq_refl eq_refl eq_refl eq_refl).
Defined.

(** X6: the calories of a [Swimming] record are
    [(mean_speed + 1.1) * 2 * weight]: with int pool fields, a duration that
    is a number and not zero and a weight that is a number, this is
    [(length_pool * count_pool / 1000 / duration + 1.1) * 2 * weight] in
    double precision.  The action does not enter: two records that differ
    only in it have the same calories, and raise the same exception when
    they raise. *)
Theorem swimming_calories_formula :
  (forall a a' d w l n,
     get_spent_calories (Swimming a d w l n) = get_spent_calories (Swimming a' d w l n))
  /\ (forall a d w (l n : Z) q z y,
        long_true_divide (l * n) 1000 = Ok q ->
        to_float d = Ok z -> is_zero z = false -> to_float w = Ok y ->
        get_spent_calories (Swimming a d w (PyInt l) (PyInt n))
        = Ok (PyFloat ((q / z + 1.1) * 2 * y))).
Proof.
  split; [reflexivity|].
  intros a d w l n q z y Hq Hz Hz0 Hy.
  apply Swimming_get_spent_calories_Ok; [|assumption].
  now apply Swimming_get_mean_speed_ints.
Qed.

Lemma swimming_calories_formula_witness :
  get_spent_calories (Swimming (PyInt 720) (PyInt 2) (PyFloat 80.5) (PyInt 25) (PyInt 40))
  = Ok (PyFloat ((1 / 2 + 1.1) * 2 * 80.5)).
Proof.
  exact (proj2 swimming_calories_formula
           (PyInt 720) (PyInt 2) (PyFloat 80.5) 25 40 1%float 2%float 80.5%float
           eq_refl eq_refl eq_refl eq_refl).
Defined.

(** ** The message and [main], continued *)

Lemma to_float_Raise (v : pyval) (e : exn) :
  to_float v = Raise e -> e = TypeError \/ e = OverflowError.
Proof.
  destruct v as [n|x|]; simpl.
  - unfold long_as_double. destruct (is_infinity _); [|discriminate].
    intros [= <-]. now right.
  - discriminate.
  - intros [= <-]. now left.
Qed.

Lemma format_3f_unfold (v : pyval) :
  PyFormat.format_3f v = (x ← to_float v; mret (PyFormat.float_format_3f x)).
Proof. destruct v; reflexivity. Qed.

Lemma format_3f_inv (v : pyval) (s : string) :
  PyFormat.format_3f v = Ok s ->
  exists x, to_float v = Ok x /\ s = PyFormat.float_format_3f x.
Proof.
  rewrite format_3f_unfold. intros H.
  apply bind_inv in H. destruct H as (x & Hx & H).
  exists x. split; [exact Hx | now injection H as <-].
Qed.

Lemma get_message_line (m : InfoMessage.t) :
  InfoMessage.get_message m =
  (d ← PyFormat.format_3f (InfoMessage.duration m);
   l ← PyFormat.format_3f (InfoMessage.distance m);
   s ← PyFormat.format_3f (InfoMessage.speed m);
   c ← PyFormat.format_3f (InfoMessage.calories m);
   mret (message_line (InfoMessage.training_type m) d l s c)).
Proof. reflexivity. Qed.

(** X7: the outcomes of [get_message].  It returns a line exactly when each
    of the four numeric fields is a number that has a float value: a float,
    or an int within the range of a double; otherwise it raises, and the
    exception is [TypeError] (a field that is [None]) or [OverflowError] (an
    int too large), those of the first such field in the order duration,
    distance, speed, calories. *)
Theorem get_message_outcomes (m : InfoMessage.t) :
  (returns (InfoMessage.get_message m) = true <->
   forall v, v ∈ [InfoMessage.duration m; InfoMessage.distance m;
                  InfoMessage.speed m; InfoMessage.calories m] ->
             returns (to_float v) = true)
  /\ (forall e, InfoMessage.get_message m = Raise e ->
        e = TypeError \/ e = OverflowError).
Proof.
  rewrite get_message_line. rewrite !format_3f_unfold.
  destruct m as [name d l s c]; simpl. split.
  - split.
    + intros H v Hv. rewrite !elem_of_cons, elem_of_nil in Hv.
      destruct (to_float d) eqn:Ed; [|discriminate].
      destruct (to_float l) eqn:El; [|discriminate].
      destruct (to_float s) eqn:Es; [|discriminate].
      destruct (to_float c) eqn:Ec; [|discriminate].
      destruct Hv as [->|[->|[->|[->|[]]]]];
        [now rewrite Ed | now rewrite El | now rewrite Es | now rewrite Ec].
    + intros H.
      pose proof (H d ltac:(set_solver)) as Hd.
      pose proof (H l ltac:(set_solver)) as Hl.
      pose proof (H s ltac:(set_solver)) as Hs.
      pose proof (H c ltac:(set_solver)) as Hc.
      destruct (to_float d); [|discriminate].
      destruct (to_float l); [|discriminate].
      destruct (to_float s); [|discriminate].
      destruct (to_float c); [|discriminate]. reflexivity.
  - intros e.
    destruct (to_float d) eqn:Ed; [|intros [= <-]; now apply to_float_Raise with d].
    destruct (to_float l) eqn:El; [|intros [= <-]; now apply to_float_Raise with l].
    destruct (to_float s) eqn:Es; [|intros [= <-]; now apply to_float_Raise with s].
    destruct (to_float c) eqn:Ec; [|intros [= <-]; now apply to_float_Raise with c].
    discriminate.
Qed.

Lemma get_message_outcomes_witness :
  returns (InfoMessage.get_message
             (InfoMessage.mk "Running" (PyInt 1) (PyFloat 9.75) (PyFloat infinity)
                (PyFloat nan))) = true
  /\ returns (InfoMessage.get_message
                (InfoMessage.mk "Training" (PyInt 1) (PyFloat 0.5) (PyFloat 0.5) PyNone))
     = false.
Proof.
  split.
  - apply (proj1 (get_message_outcomes _)). simpl. intros v Hv.
    rewrite !elem_of_cons, elem_of_nil in Hv.
    destruct Hv as [->|[->|[->|[->|[]]]]]; reflexivity.
  - destruct (InfoMessage.get_message
                (InfoMessage.mk "Training" (PyInt 1) (PyFloat 0.5) (PyFloat 0.5) PyNone))
      as [line|e] eqn:E; [|reflexivity].
    exfalso.
    assert (R : returns (InfoMessage.get_message
                (InfoMessage.mk "Training" (PyInt 1) (PyFloat 0.5) (PyFloat 0.5) PyNone))
                = true) by now rewrite E.
    apply (proj1 (proj1 (get_message_outcomes _))) with (v := PyNone) in R;
      [discriminate | simpl; set_solver].
Defined.

Lemma main_of_metrics (t : training) (z l s c : float) :
  to_float (duration t) = Ok z ->
  get_distance t = Ok (PyFloat l) ->
  get_mean_speed t = Ok (PyFloat s) ->
  get_spent_calories t = Ok (PyFloat c) ->
  main t = Ok (message_line (__name__ (__class__ t))
                 (PyFormat.float_format_3f z) (PyFormat.float_format_3f l)
                 (PyFormat.float_format_3f s) (PyFormat.float_format_3f c)).
Proof.
  intros Hz Hl Hs Hc. unfold main, show_training_info.
  rewrite Hl, Hs, Hc, !bind_Ok, get_message_line. simpl.
  rewrite (format_3f_Ok _ _ Hz), bind_Ok.
  reflexivity.
Qed.

(** X8: what [main] prints is what the methods return.  [main] returns a
    line for an object exactly when its duration is a number and its
    distance, mean speed and calories are floats that the three methods
    returned, and the line is then the template filled with the name of the
    class and these four numbers, each rendered with [{:.3f}]; such an
    object is of one of the three subclasses, never of the base class. *)
Theorem main_line (t : training) (line : string) :
  (main t = Ok line <->
   exists z l s c,
     to_float (duration t) = Ok z
     /\ get_distance t = Ok (PyFloat l)
     /\ get_mean_speed t = Ok (PyFloat s)
     /\ get_spent_calories t = Ok (PyFloat c)
     /\ line = message_line (__name__ (__class__ t))
                 (PyFormat.float_format_3f z) (PyFormat.float_format_3f l)
                 (PyFormat.float_format_3f s) (PyFormat.float_format_3f c))
  /\ (main t = Ok line -> __class__ t <> Training_).
Proof.
  assert (Inv : main t = Ok line ->
    __class__ t <> Training_
    /\ exists z l s c,
         to_float (duration t) = Ok z
         /\ get_distance t = Ok (PyFloat l)
         /\ get_mean_speed t = Ok (PyFloat s)
         /\ get_spent_calories t = Ok (PyFloat c)
         /\ line = message_line (__name__ (__class__ t))
                     (PyFormat.float_format_3f z) (PyFormat.float_format_3f l)
                     (PyFormat.float_format_3f s) (PyFormat.float_format_3f c)).
  { unfold main, show_training_info. intros H.
    apply bind_inv in H. destruct H as (info & Hi & H).
    apply bind_inv in Hi. destruct Hi as (l & Hl & Hi).
    apply bind_inv in Hi. destruct Hi as (s & Hs & Hi).
    apply bind_inv in Hi. destruct Hi as (c & Hc & Hi).
    injection Hi as <-. rewrite get_message_line in H. simpl in H.
    apply bind_inv in H. destruct H as (sd & Hd & H).
    apply bind_inv in H. destruct H as (sl & Hfl & H).
    apply bind_inv in H. destruct H as (ss & Hfs & H).
    apply bind_inv in H. destruct H as (sc & Hfc & H).
    injection H as <-.
    destruct (get_distance_is_float _ _ Hl) as [fl ->].
    destruct (get_mean_speed_is_float _ _ Hs) as [fs ->].
    apply format_3f_inv in Hd, Hfl, Hfs.
    destruct Hd as (z & Hz & ->), Hfl as (? & [= <-] & ->), Hfs as (? & [= <-] & ->).
    assert (N : __class__ t <> Training_).
    { intros E. destruct t; try discriminate E.
      simpl in Hc. injection Hc as <-. discriminate Hfc. }
    split; [exact N|].
    destruct (get_spent_calories_is_float _ _ N Hc) as [fc ->].
    apply format_3f_inv in Hfc. destruct Hfc as (? & [= <-] & ->).
    exists z, fl, fs, fc. repeat split; assumption. }
  split; [split|].
  - intros H. exact (proj2 (Inv H)).
  - intros (z & l & s & c & Hz & Hl & Hs & Hc & ->).
    now apply main_of_metrics.
  - intros H. exact (proj1 (Inv H)).
Qed.

Lemma main_line_witness :
  exists z l s c,
    to_float (PyInt 1) = Ok z
    /\ get_distance (Running (PyInt 15000) (PyInt 1) (PyInt 75)) = Ok (PyFloat l)
    /\ get_mean_speed (Running (PyInt 15000) (PyInt 1) (PyInt 75)) = Ok (PyFloat s)
    /\ get_spent_calories (Running (PyInt 15000) (PyInt 1) (PyInt 75)) = Ok (PyFloat c)
    /\ "Тип тренировки: Running; Длительность: 1.000 ч.; Дистанция: 9.750 км; Ср. скорость: 9.750 км/ч; Потрачено ккал: 699.750."
       = message_line "Running"
           (PyFormat.float_format_3f z) (PyFormat.float_format_3f l)
           (PyFormat.float_format_3f s) (PyFormat.float_format_3f c).
Proof.
  exact (proj1 (proj1 (main_line (Running (PyInt 15000) (PyInt 1) (PyInt 75)) _))
           eq_refl).
Defined.



(** X10: a zero divisor stops [main].  For an object whose duration is zero
    [main] never returns a line, and once the distance and the dividend of
    the speed have a value what it raises is the [ZeroDivisionError] of
    [get_mean_speed], which nothing on the way catches; for a
    [SportsWalking] object whose height is zero it never returns a line
    either. *)
Theorem main_zero_divisor :
  (forall t, py_is_zero (duration t) = true ->
     returns (main t) = false
     /\ (forall l x, get_distance t = Ok l -> mean_speed_dividend t = Ok x ->
           main t = Raise ZeroDivisionError))
  /\ (forall a d w h, py_is_zero h = true ->
        returns (main (SportsWalking a d w h)) = false).
Proof.
  split.
  - intros t Hd.
    destruct (get_mean_speed_zero_duration t Hd) as [Hr Hz].
    unfold main, show_training_info. split.
    + apply bind_returns.
      destruct (get_distance t); [|reflexivity]. rewrite bind_Ok.
      now apply bind_returns.
    + intros l x Hl Hx. now rewrite Hl, bind_Ok, (Hz x Hx).
  - intros a d w h Hh.
    destruct (SportsWalking_zero_height a d w h Hh) as [Hr _].
    unfold main, show_training_info. apply bind_returns.
    destruct (get_distance _); [|reflexivity]. rewrite bind_Ok.
    destruct (get_mean_speed _); [|reflexivity]. rewrite bind_Ok.
    now apply bind_returns.
Qed.

Lemma main_zero_divisor_witness :
  main (Running (PyInt 15000) (PyInt 0) (PyInt 75)) = Raise ZeroDivisionError
  /\ returns (main (SportsWalking (PyInt 9000) (PyInt 1) (PyInt 75) (PyFloat 0))) = false.
Proof.
  split.
  - exact (proj2 (proj1 main_zero_divisor (Running (PyInt 15000) (PyInt 0) (PyInt 75))
                    eq_refl) (PyFloat 9.75) (PyFloat 9.75) eq_refl eq_refl).
  - exact (proj2 main_zero_divisor (PyInt 9000) (PyInt 1) (PyInt 75) (PyFloat 0) eq_refl).
Defined.
